(** * filter_repositories.py: the partition of a repository dataset

    The script loads one JSON document, walks the entries of its root
    object once and files every entry under one of two dictionaries:
    [file_a] when the record's [lastCheckedAt] is null (or missing) or a
    string that starts with 2023, [file_b] otherwise.  This development
    embeds the values that [json.load] produces, the Python operations the
    script calls on them, and the loop of lines 13-21, and proves the
    properties of the partition. *)

From Stdlib Require Import ZArith String Ascii.
From Stdlib Require Import Floats.SpecFloat.
From stdpp Require Import base option list strings gmap.

Local Open Scope string_scope.
Local Open Scope list_scope.
#[local] Set Warnings "-register-all".

(** ** Values produced by [json.load]

    A JSON document deserializes to [None], a [bool], an [int], a [float],
    a [str], a [list] or a [dict] with [str] keys.  A Python [str] is
    modelled by [string]; a non-ASCII text is read as its UTF-8 bytes, which
    leaves a test against the ASCII prefix 2023 unchanged. *)

Inductive json : Type :=
  | JNull
  | JBool (b : bool)
  | JInt (n : Z)
  | JFloat (x : spec_float)
  | JStr (s : string)
  | JList (l : list json)
  | JDict (d : list (string * json)).

(** ** Python dictionaries

    A [dict] keeps its items in insertion order and holds a key at most
    once.  It is modelled by the list of its items, first inserted first;
    [dict_wf] is the invariant that no key occurs twice. *)

Abbreviation dict V := (list (string * V)).

Section dict.
Context {V : Type}.

(** [d.get(k)], as an option: [None] stands for the missing key. *)
Fixpoint dict_get (d : dict V) (k : string) : option V :=
  match d with
  | [] => None
  | (k', v) :: d' => if decide (k = k') then Some v else dict_get d' k
  end.

(** [d[k] = v]: an existing key keeps its position and takes the new
    value, a new key is appended. *)
Fixpoint dict_setitem (d : dict V) (k : string) (v : V) : dict V :=
  match d with
  | [] => [(k, v)]
  | (k', v') :: d' =>
      if decide (k = k') then (k', v) :: d' else (k', v') :: dict_setitem d' k v
  end.

(** [d.keys()], in order, and as a set. *)
Definition dict_keys (d : dict V) : list string := d.*1.

Definition key_set (d : dict V) : gset string := list_to_set (dict_keys d).

Definition dict_wf (d : dict V) : Prop := NoDup (dict_keys d).

(** [a.update(b)]: the items of [b] are set in [a] one after the other. *)
Definition dict_update (a b : dict V) : dict V :=
  foldl (λ acc kv, dict_setitem acc kv.1 kv.2) a b.
End dict.

(** ** Exceptions and results *)

(** [AttributeError] is what lines 16-18 can raise.  [WriteError] stands
    for whatever [open] or [json.dump] raises while the file [path] is
    written (an [OSError], a [UnicodeEncodeError] on a lone surrogate, a
    [RecursionError]). *)
Inductive exn : Type :=
  | AttributeError (type_name attr : string)
  | WriteError (path : string).

Inductive result (A : Type) : Type :=
  | Ok (a : A)
  | Raise (e : exn).
Arguments Ok {A} a.
Arguments Raise {A} e.

#[global] Instance result_ret : MRet result := @Ok.
#[global] Instance result_bind : MBind result :=
  λ A B f m, match m with Ok a => f a | Raise e => Raise e end.

(** ** The Python operations of the script *)

(** [type(v).__name__], as it shows in the message of an [AttributeError]. *)
Definition type_name (v : json) : string :=
  match v with
  | JNull => "NoneType"
  | JBool _ => "bool"
  | JInt _ => "int"
  | JFloat _ => "float"
  | JStr _ => "str"
  | JList _ => "list"
  | JDict _ => "dict"
  end.

Definition is_dict (v : json) : bool :=
  match v with JDict _ => true | _ => false end.

(** [v.items()]: only a dict has the method. *)
Definition py_items (v : json) : result (dict json) :=
  match v with
  | JDict d => Ok d
  | _ => Raise (AttributeError (type_name v) "items")
  end.

(** [v.get(k)]: only a dict has the method; a missing key gives [None]. *)
Definition py_get (v : json) (k : string) : result json :=
  match v with
  | JDict d => Ok (default JNull (dict_get d k))
  | _ => Raise (AttributeError (type_name v) "get")
  end.

(** [v is None] *)
Definition is_None (v : json) : bool :=
  match v with JNull => true | _ => false end.

(** [isinstance(v, str)] *)
Definition isinstance_str (v : json) : bool :=
  match v with JStr _ => true | _ => false end.

(** [v.startswith(p)]: among the values of a JSON document only a [str]
    has the method. *)
Definition py_startswith (v : json) (p : string) : result bool :=
  match v with
  | JStr s => Ok (String.prefix p s)
  | _ => Raise (AttributeError (type_name v) "startswith")
  end.

(** ** The script, lines 13-21 *)

(** Line 18: [last_checked is None or (isinstance(last_checked, str) and
    last_checked.startswith("2023"))], with the short-circuit evaluation of
    [or] and [and]. *)
Definition condition (last_checked : json) : result bool :=
  if is_None last_checked then Ok true
  else if isinstance_str last_checked then py_startswith last_checked "2023"
  else Ok false.

(** Lines 17-21: one turn of the loop on the item [(key, value)]. *)
Definition loop_body (st : dict json * dict json) (item : string * json)
  : result (dict json * dict json) :=
  let '(file_a, file_b) := st in
  let '(key, value) := item in
  last_checked ← py_get value "lastCheckedAt";
  c ← condition last_checked;
  if (c : bool) then Ok (dict_setitem file_a key value, file_b)
  else Ok (file_a, dict_setitem file_b key value).

(** Line 16: the [for] statement; an exception leaves the loop. *)
Fixpoint for_items (items : dict json) (st : dict json * dict json)
  : result (dict json * dict json) :=
  match items with
  | [] => Ok st
  | item :: rest => st' ← loop_body st item; for_items rest st'
  end.

(** Lines 13-21, from the value [data] that [json.load] returned to the two
    dictionaries that lines 24-28 write out. *)
Definition filter_repositories (data : json) : result (dict json * dict json) :=
  let file_a : dict json := [] in
  let file_b : dict json := [] in
  items ← py_items data;
  for_items items (file_a, file_b).

(** ** Datasets *)

(** A Dataset maps repository identifiers to records: a dictionary all of
    whose values are dictionaries. *)
Definition all_records (d : dict json) : Prop :=
  Forall (λ item, is_dict item.2 = true) d.

Definition Dataset (d : dict json) : Prop := dict_wf d ∧ all_records d.

(** The value of the field [lastCheckedAt] of a record, null when the field
    is missing. *)
Definition lastCheckedAt (record : dict json) : json :=
  default JNull (dict_get record "lastCheckedAt").

(** The rule of the partition, in the words of the specification: null, or
    a string whose first four characters are 2023. *)
Definition null_or_2023 (v : json) : Prop :=
  v = JNull ∨ ∃ s, v = JStr s ∧ String.substring 0 4 s = "2023".

(** The same rule computed from the code: what line 18 answers on the
    value found by line 17, [false] when either line raises. *)
Definition goes_to_a (value : json) : bool :=
  match py_get value "lastCheckedAt" ≫= condition with
  | Ok b => b
  | Raise _ => false
  end.

(** The items that line 18 sends to [file_a], and those it sends to
    [file_b]. *)
Definition to_a (item : string * json) : Prop := goes_to_a item.2 = true.
Definition to_b (item : string * json) : Prop := goes_to_a item.2 = false.

#[global] Instance to_a_dec item : Decision (to_a item) :=
  decide (goes_to_a item.2 = true).
#[global] Instance to_b_dec item : Decision (to_b item) :=
  decide (goes_to_a item.2 = false).

(** A Dataset given by its items is checked by computation. *)
#[global] Instance Dataset_dec D : Decision (Dataset D) :=
  decide (NoDup D.*1 ∧ Forall (λ item : string * json, is_dict item.2 = true) D).

Ltac by_computation := apply (bool_decide_unpack _); vm_compute; exact I.

(** The number of characters of a text given by its UTF-8 bytes: the bytes
    that are not continuation bytes (10xxxxxx). *)
Definition is_continuation (c : ascii) : bool :=
  match c with Ascii _ _ _ _ _ _ b6 b7 => b7 && negb b6 end.

Fixpoint utf8_length (s : string) : nat :=
  match s with
  | EmptyString => 0
  | String c s' => (if is_continuation c then 0 else 1) + utf8_length s'
  end.

(** ** The run of the script *)

(** Lines 5-6. *)
Definition output_file_a : string := "filtered_2023_or_null.json".
Definition output_file_b : string := "filtered_other.json".

(** How a [with open(path, "w") as f: json.dump(d, f, ...)] block ends: the
    file holds the whole text of [d]; or [open] succeeded and [json.dump]
    (or closing the file) raised, and the file holds a text cut short; or
    [open] raised and the file is as it was. *)
Inductive write_outcome : Type :=
  | Written
  | CutShort
  | NotOpened.

(** What a run leaves in a file it opened. *)
Inductive event : Type :=
  | Whole (path : string) (d : dict json)
  | Partial (path : string) (d : dict json).

(** Lines 24-25 and 27-28: one [with] block, in an environment [io] that
    tells how writing a dictionary to a path ends. *)
Definition write (io : string → dict json → write_outcome)
    (path : string) (d : dict json) : list event * option exn :=
  match io path d with
  | Written => ([Whole path d], None)
  | CutShort => ([Partial path d], Some (WriteError path))
  | NotOpened => ([], Some (WriteError path))
  end.

(** Lines 13-28, from the value that [json.load] returned: what the run
    leaves in the files it opened, in order, and the exception that ended
    these lines, if any.  The second file is opened only when the first
    block ended without an exception. *)
Definition script (io : string → dict json → write_outcome) (data : json)
  : list event * option exn :=
  match filter_repositories data with
  | Ok (file_a, file_b) =>
      match write io output_file_a file_a with
      | (events, None) =>
          let '(events', e) := write io output_file_b file_b in
          (events ++ events', e)
      | (events, Some e) => (events, Some e)
      end
  | Raise e => ([], Some e)
  end.

(** ** A sample Dataset *)

Definition r1 : json := JDict [("lastCheckedAt", JNull)].
Definition r2 : json := JDict [("lastCheckedAt", JStr "2023-01-01")].
Definition r3 : json := JDict [("lastCheckedAt", JStr "2024-06-01")].

Definition sample : dict json := [("r1", r1); ("r2", r2); ("r3", r3)].

(** ** Facts about dictionaries *)

Section dict_facts.
Context {V : Type}.
Implicit Types (d : dict V) (k : string) (v : V).

Lemma dict_get_None d k : dict_get d k = None ↔ k ∉ dict_keys d.
Proof.
  unfold dict_keys. induction d as [|[k' v'] d IH]; simpl.
  - split; [intros _; apply not_elem_of_nil | done].
  - rewrite not_elem_of_cons. case_decide as Hk.
    + split; [done | tauto].
    + rewrite IH. tauto.
Qed.

Lemma dict_get_elem_of d k v : dict_get d k = Some v → (k, v) ∈ d.
Proof.
  induction d as [|[k' v'] d IH]; simpl; [done |].
  case_decide as Hk.
  - intros [= ->]. subst k'. left.
  - intros Hd. right. auto.
Qed.

Lemma elem_of_dict_get d k v : dict_wf d → (k, v) ∈ d → dict_get d k = Some v.
Proof.
  unfold dict_wf, dict_keys. induction d as [|[k' v'] d IH]; simpl.
  - intros _ Hin. by apply elem_of_nil in Hin.
  - intros [Hfresh Hnd]%NoDup_cons Hin. apply elem_of_cons in Hin.
    case_decide as Hk.
    + subst k'. destruct Hin as [[= ->] | Hin]; [done |].
      exfalso. apply Hfresh. apply list_elem_of_fmap. by exists (k, v).
    + destruct Hin as [[= -> ->] | Hin]; [done | auto].
Qed.

Lemma dict_get_Some d k v : dict_wf d → dict_get d k = Some v ↔ (k, v) ∈ d.
Proof. split; [apply dict_get_elem_of | by apply elem_of_dict_get]. Qed.

Lemma elem_of_key_set d k : k ∈ key_set d ↔ is_Some (dict_get d k).
Proof.
  unfold key_set. rewrite elem_of_list_to_set.
  rewrite <- not_eq_None_Some, dict_get_None.
  split; [tauto | apply dec_stable].
Qed.

Lemma not_elem_of_key_set d k : k ∉ key_set d ↔ dict_get d k = None.
Proof. by rewrite elem_of_key_set, eq_None_not_Some. Qed.

(** A new key goes to the end of the dictionary. *)
Lemma dict_setitem_fresh d k v :
  k ∉ dict_keys d → dict_setitem d k v = d ++ [(k, v)].
Proof.
  unfold dict_keys. induction d as [|[k' v'] d IH]; simpl; [done |].
  intros [Hne Hk]%not_elem_of_cons. rewrite decide_False by done.
  f_equal. by apply IH.
Qed.

Lemma dict_get_setitem d k v k' :
  dict_get (dict_setitem d k v) k' = if decide (k' = k) then Some v else dict_get d k'.
Proof.
  induction d as [|[k0 v0] d IH]; simpl; [done |].
  destruct (decide (k = k0)) as [-> | Hne]; simpl.
  - by destruct (decide (k' = k0)).
  - rewrite IH. destruct (decide (k' = k0)) as [-> | ?]; [| done].
    by rewrite decide_False.
Qed.

Lemma dict_keys_setitem d k v k' :
  k' ∈ dict_keys (dict_setitem d k v) ↔ k' = k ∨ k' ∈ dict_keys d.
Proof.
  split.
  - intros Hin. destruct (decide (k' = k)) as [| Hne]; [by left | right].
    destruct (decide (k' ∈ dict_keys d)) as [| Hout]; [done |].
    apply dict_get_None in Hout. exfalso. revert Hin. apply dict_get_None.
    by rewrite dict_get_setitem, decide_False.
  - intros Hin. destruct (decide (k' ∈ dict_keys (dict_setitem d k v)))
      as [| Hout]; [done |].
    apply dict_get_None in Hout. rewrite dict_get_setitem in Hout.
    case_decide; [done |]. destruct Hin as [| Hin]; [done |].
    exfalso. revert Hin. by apply dict_get_None.
Qed.

(** Setting an item keeps the keys of a dictionary distinct. *)
Lemma dict_setitem_wf d k v : dict_wf d → dict_wf (dict_setitem d k v).
Proof.
  unfold dict_wf. induction d as [|[k0 v0] d IH].
  - intros _. apply NoDup_singleton.
  - cbn [dict_setitem]. unfold dict_keys in *. rewrite fmap_cons.
    intros [Hfresh Hnd]%NoDup_cons. case_decide as Hk.
    + rewrite fmap_cons. by apply NoDup_cons.
    + rewrite fmap_cons. apply NoDup_cons. split; [| auto].
      simpl in *. intros Hin.
      destruct (proj1 (dict_keys_setitem d k v k0) Hin) as [-> | Hin'];
        [done | by apply Hfresh].
Qed.

(** In [a.update(b)] the items of [b] win over those of [a]. *)
Lemma dict_get_update (a b : dict V) k :
  dict_wf b →
  dict_get (dict_update a b) k = from_option Some (dict_get a k) (dict_get b k).
Proof.
  unfold dict_update, dict_wf, dict_keys.
  revert a. induction b as [|[k0 v0] b IH]; intros a; simpl; [done |].
  intros [Hfresh Hnd]%NoDup_cons. rewrite IH by done.
  rewrite dict_get_setitem. case_decide as Hk; [| done].
  subst k0. apply dict_get_None in Hfresh. by rewrite Hfresh.
Qed.

Section filter.
Context (P : string * V → Prop) `{!∀ x, Decision (P x)}.

Lemma dict_keys_filter d k : k ∈ dict_keys (filter P d) → k ∈ dict_keys d.
Proof.
  unfold dict_keys. rewrite !list_elem_of_fmap.
  intros [x [-> [_ Hx]%list_elem_of_filter]]. eauto.
Qed.

Lemma dict_wf_filter d : dict_wf d → dict_wf (filter P d).
Proof.
  unfold dict_wf. induction d as [|[k v] d IH]; [done |].
  unfold dict_keys in *. rewrite fmap_cons. intros [Hfresh Hnd]%NoDup_cons.
  rewrite filter_cons. case_decide; [| auto].
  rewrite fmap_cons. apply NoDup_cons. split; [| auto].
  intros Hin. apply Hfresh. by apply dict_keys_filter.
Qed.

Lemma dict_get_filter d k v :
  dict_wf d → dict_get (filter P d) k = Some v ↔ dict_get d k = Some v ∧ P (k, v).
Proof.
  intros Hwf. rewrite !dict_get_Some by auto using dict_wf_filter.
  rewrite list_elem_of_filter. tauto.
Qed.

Lemma dict_get_filter_None d k :
  dict_wf d →
  dict_get (filter P d) k = None ↔ ∀ v, dict_get d k = Some v → ¬ P (k, v).
Proof.
  intros Hwf. split.
  - intros Hnone v Hv HP.
    assert (dict_get (filter P d) k = Some v) by by apply dict_get_filter.
    congruence.
  - intros Hall. destruct (dict_get (filter P d) k) as [v|] eqn:Hget; [| done].
    apply dict_get_filter in Hget as [Hv HP]; [| done]. by destruct (Hall v).
Qed.
End filter.
End dict_facts.

(** ** The loop computes two filters *)

(** Line 18 raises on no value. *)
Lemma condition_total v : ∃ b, condition v = Ok b.
Proof. destruct v; simpl; eauto. Qed.

(** Line 18 answers [True] on the values of the specification's rule. *)
Lemma condition_true v : condition v = Ok true ↔ null_or_2023 v.
Proof.
  unfold null_or_2023, condition. destruct v as [| b | n | x | s | l | d]; simpl.
  1: by split; [left |].
  4: { split.
       - intros [= Hp]. right. exists s. split; [done |].
         by apply (proj1 (String.prefix_correct "2023" s)).
       - intros [[=] | (s' & [= <-] & Hs)]. f_equal.
         by apply (proj2 (String.prefix_correct "2023" s)). }
  all: split; [intros [=] | intros [[=] | (? & [=] & _)]].
Qed.

Lemma goes_to_a_record record :
  goes_to_a (JDict record) = true ↔ null_or_2023 (lastCheckedAt record).
Proof.
  unfold goes_to_a, lastCheckedAt. simpl. rewrite <- condition_true.
  destruct (condition_total (default JNull (dict_get record "lastCheckedAt")))
    as [b ->].
  split; [by intros -> | by intros [= ->]].
Qed.

(** One turn of the loop on a record sets the item in one dictionary and
    leaves the other as it is. *)
Lemma loop_body_record file_a file_b key value :
  is_dict value = true →
  loop_body (file_a, file_b) (key, value)
  = Ok (if goes_to_a value then (dict_setitem file_a key value, file_b)
        else (file_a, dict_setitem file_b key value)).
Proof.
  destruct value as [| | | | | |record]; try done. intros _.
  unfold loop_body, goes_to_a. simpl.
  destruct (condition_total (default JNull (dict_get record "lastCheckedAt")))
    as [b ->].
  simpl. by destruct b.
Qed.

Lemma for_items_cons item rest st :
  for_items (item :: rest) st = loop_body st item ≫= for_items rest.
Proof. reflexivity. Qed.

(** The invariant of the loop: started on dictionaries that hold none of
    the keys still to come, it appends to [file_a] the remaining items that
    line 18 accepts and to [file_b] the others, each in its order. *)
Lemma for_items_filter items file_a file_b :
  dict_wf items → all_records items →
  (∀ k, k ∈ dict_keys items → (k ∉ dict_keys file_a) ∧ (k ∉ dict_keys file_b)) →
  for_items items (file_a, file_b)
  = Ok (file_a ++ filter to_a items, file_b ++ filter to_b items).
Proof.
  unfold dict_wf, all_records, dict_keys.
  revert file_a file_b.
  induction items as [|[key value] items IH]; intros file_a file_b.
  { intros _ _ _. simpl. by rewrite !app_nil_r. }
  rewrite fmap_cons.
  intros [Hkey Hnd]%NoDup_cons [Hrec Hall]%Forall_cons Hfresh. simpl in Hrec.
  rewrite for_items_cons, loop_body_record by done.
  destruct (Hfresh key) as [Ha Hb]; [left |].
  assert (Hrest : ∀ k, k ∈ items.*1 → k ≠ key) by (by intros k Hk ->).
  destruct (goes_to_a value) eqn:Hgo; simpl.
  - rewrite dict_setitem_fresh by done.
    rewrite IH; [| done | done |].
    + rewrite filter_cons_True by done.
      rewrite (filter_cons_False to_b); [| unfold to_b; simpl; congruence].
      by rewrite <- app_assoc.
    + intros k Hk. destruct (Hfresh k) as [Hka Hkb]; [by right |].
      split; [| done]. unfold dict_keys. rewrite fmap_app, elem_of_app.
      intros [? | ?%list_elem_of_singleton]; [done | by apply (Hrest k)].
  - rewrite dict_setitem_fresh by done.
    rewrite IH; [| done | done |].
    + rewrite (filter_cons_True to_b) by done.
      rewrite (filter_cons_False to_a); [| unfold to_a; simpl; congruence].
      by rewrite <- app_assoc.
    + intros k Hk. destruct (Hfresh k) as [Hka Hkb]; [by right |].
      split; [done |]. unfold dict_keys. rewrite fmap_app, elem_of_app.
      intros [? | ?%list_elem_of_singleton]; [done | by apply (Hrest k)].
Qed.

(** On a Dataset the script returns: [file_a] holds the items that line 18
    accepts and [file_b] the others, both in the order of the input. *)
Lemma filter_repositories_Dataset D :
  Dataset D → filter_repositories (JDict D) = Ok (filter to_a D, filter to_b D).
Proof.
  intros [Hwf Hall]. unfold filter_repositories. simpl.
  rewrite for_items_filter; [done | done | done |].
  intros k _. split; apply not_elem_of_nil.
Qed.

(** Every key of a dictionary is sent to exactly one side. *)
Lemma to_a_or_to_b item : to_a item ∨ to_b item.
Proof. unfold to_a, to_b. destruct (goes_to_a item.2); auto. Qed.

Lemma to_b_not_to_a item : to_b item ↔ ¬ to_a item.
Proof. unfold to_a, to_b. destruct (goes_to_a item.2); split; congruence. Qed.

(** A text of fewer than four characters does not start with 2023, its
    characters counted from its UTF-8 bytes. *)
Lemma short_text_no_prefix s :
  (utf8_length s < 4)%nat → String.prefix "2023" s = false.
Proof.
  destruct s as [|c1 [|c2 [|c3 [|c4 s]]]]; intros Hlen;
    cbn [String.prefix];
    repeat (destruct (Ascii.ascii_dec _ _) as [<- |]); try reflexivity.
  simpl in Hlen. lia.
Qed.

(** What the two output dictionaries hold, by key. *)
Lemma partition_get D :
  Dataset D →
  ∃ A B, filter_repositories (JDict D) = Ok (A, B)
    ∧ dict_wf A ∧ dict_wf B
    ∧ (∀ k v, dict_get A k = Some v ↔ dict_get D k = Some v ∧ goes_to_a v = true)
    ∧ (∀ k v, dict_get B k = Some v ↔ dict_get D k = Some v ∧ goes_to_a v = false).
Proof.
  intros HD. exists (filter to_a D), (filter to_b D).
  split; [by apply filter_repositories_Dataset |].
  destruct HD as [Hwf _].
  split; [by apply dict_wf_filter |]. split; [by apply dict_wf_filter |].
  split; intros k v; by rewrite dict_get_filter.
Qed.

(** An entry of the input is in exactly one output, with its record. *)
Lemma partition_side D A B k v :
  dict_get D k = Some v →
  (∀ k v, dict_get A k = Some v ↔ dict_get D k = Some v ∧ goes_to_a v = true) →
  (∀ k v, dict_get B k = Some v ↔ dict_get D k = Some v ∧ goes_to_a v = false) →
  if goes_to_a v then dict_get A k = Some v ∧ dict_get B k = None
  else dict_get A k = None ∧ dict_get B k = Some v.
Proof.
  intros HD HA HB. destruct (goes_to_a v) eqn:Hgo.
  - split; [by apply HA |].
    destruct (dict_get B k) as [w|] eqn:Hw; [| done].
    apply HB in Hw as [Hw Hgo']. congruence.
  - split; [| by apply HB].
    destruct (dict_get A k) as [w|] eqn:Hw; [| done].
    apply HA in Hw as [Hw Hgo']. congruence.
Qed.

(** A key the input does not hold is in neither output. *)
Lemma partition_absent D A B k :
  dict_get D k = None →
  (∀ k v, dict_get A k = Some v ↔ dict_get D k = Some v ∧ goes_to_a v = true) →
  (∀ k v, dict_get B k = Some v ↔ dict_get D k = Some v ∧ goes_to_a v = false) →
  dict_get A k = None ∧ dict_get B k = None.
Proof.
  intros HD HA HB. split.
  - destruct (dict_get A k) as [w|] eqn:Hw; [| done].
    apply HA in Hw as [Hw _]. congruence.
  - destruct (dict_get B k) as [w|] eqn:Hw; [| done].
    apply HB in Hw as [Hw _]. congruence.
Qed.

(** A string of fewer than four characters does not start with 2023. *)
Lemma short_string_no_prefix s :
  (String.length s < 4)%nat → String.prefix "2023" s = false.
Proof.
  destruct s as [|c1 [|c2 [|c3 [|c4 s]]]]; intros Hlen;
    cbn [String.prefix]; repeat (destruct (Ascii.ascii_dec _ _));
    try reflexivity.
  simpl in Hlen. lia.
Qed.

(** A text has at most as many characters as bytes. *)
Lemma utf8_length_le s : (utf8_length s ≤ String.length s)%nat.
Proof.
  induction s as [|c s IH]; simpl; [done |].
  destruct (is_continuation c); lia.
Qed.

(** ** The properties of the partition *)

(** C1: on every Dataset the script returns two dictionaries [A] and [B]
    whose key sets are disjoint and whose union is the key set of the
    input; every key of the input is in exactly one of them. *)
Theorem partition_key_sets D :
  Dataset D →
  ∃ A B, filter_repositories (JDict D) = Ok (A, B)
    ∧ dict_wf A ∧ dict_wf B
    ∧ key_set A ## key_set B
    ∧ key_set A ∪ key_set B = key_set D
    ∧ ∀ k, k ∈ key_set D →
        (k ∈ key_set A ∧ (k ∉ key_set B)) ∨ ((k ∉ key_set A) ∧ k ∈ key_set B).
Proof.
  intros HD. destruct (partition_get D HD) as (A & B & Hrun & HwfA & HwfB & HA & HB).
  exists A, B. do 3 (split; [done |]).
  assert (Hone : ∀ k, k ∈ key_set D →
    (k ∈ key_set A ∧ (k ∉ key_set B)) ∨ ((k ∉ key_set A) ∧ k ∈ key_set B)).
  { intros k [v Hv]%elem_of_key_set.
    pose proof (partition_side D A B k v Hv HA HB) as Hside.
    rewrite !not_elem_of_key_set, !elem_of_key_set.
    destruct (goes_to_a v); destruct Hside as [Hl Hr]; [left | right];
      rewrite ?Hl, ?Hr; eauto. }
  split; [| split; [| done]].
  - apply elem_of_disjoint.
    intros k [va Ha]%elem_of_key_set [vb Hb]%elem_of_key_set.
    apply HA in Ha as [Ha Hgo]. apply HB in Hb as [Hb Hgo']. congruence.
  - apply set_eq. intros k. rewrite elem_of_union. split.
    + rewrite !elem_of_key_set.
      intros [[v Hv] | [v Hv]]; [apply HA in Hv | apply HB in Hv];
        destruct Hv as [Hv _]; eauto.
    + intros Hk. destruct (Hone k Hk) as [[? _] | [_ ?]]; auto.
Qed.

Lemma partition_key_sets_witness :
  Dataset sample ∧
  ∃ A B, filter_repositories (JDict sample) = Ok (A, B)
    ∧ dict_wf A ∧ dict_wf B
    ∧ key_set A ## key_set B
    ∧ key_set A ∪ key_set B = key_set sample
    ∧ ∀ k, k ∈ key_set sample →
        (k ∈ key_set A ∧ (k ∉ key_set B)) ∨ ((k ∉ key_set A) ∧ k ∈ key_set B).
Proof.
  split; [by_computation |]. apply (partition_key_sets sample). by_computation.
Defined.

(** C2: an entry [(k, record)] of a Dataset is placed into [A] if and only
    if the value of its [lastCheckedAt], null when the field is missing, is
    null or a string whose first four characters are 2023; otherwise it is
    placed into [B]. *)
Theorem partition_rule D k record :
  Dataset D → dict_get D k = Some (JDict record) →
  ∃ A B, filter_repositories (JDict D) = Ok (A, B)
    ∧ (dict_get A k = Some (JDict record) ↔ null_or_2023 (lastCheckedAt record))
    ∧ (dict_get B k = Some (JDict record) ↔ ¬ null_or_2023 (lastCheckedAt record)).
Proof.
  intros HD Hk. destruct (partition_get D HD) as (A & B & Hrun & _ & _ & HA & HB).
  exists A, B. split; [done |].
  rewrite HA, HB, <- goes_to_a_record.
  destruct (goes_to_a (JDict record)); intuition congruence.
Qed.

Lemma partition_rule_witness :
  Dataset sample ∧ dict_get sample "r2" = Some r2 ∧
  ∃ A B, filter_repositories (JDict sample) = Ok (A, B)
    ∧ (dict_get A "r2" = Some r2
       ↔ null_or_2023 (lastCheckedAt [("lastCheckedAt", JStr "2023-01-01")]))
    ∧ (dict_get B "r2" = Some r2
       ↔ ¬ null_or_2023 (lastCheckedAt [("lastCheckedAt", JStr "2023-01-01")])).
Proof.
  split; [by_computation |]. split; [reflexivity |].
  apply (partition_rule sample "r2" [("lastCheckedAt", JStr "2023-01-01")]);
    [by_computation | reflexivity].
Defined.

(** C3, as stated, fails: the root of this input is a mapping, and line 17
    raises on its entry, whose value is the integer 5. *)
Lemma mapping_root_can_raise :
  is_dict (JDict [("r1", JInt 5)]) = true
  ∧ dict_wf [("r1", JInt 5)]
  ∧ filter_repositories (JDict [("r1", JInt 5)]) = Raise (AttributeError "int" "get").
Proof. split; [reflexivity |]. split; [by_computation | reflexivity]. Qed.

(** C3, amended: on every input whose root is a mapping all of whose values
    are mappings, the classification returns; lines 17 and 18 raise on no
    entry, and a record without [lastCheckedAt] is read as null and placed
    into [A]. *)
Theorem classification_cannot_fail D :
  Dataset D →
  ∃ A B, filter_repositories (JDict D) = Ok (A, B)
    ∧ ∀ k value, dict_get D k = Some value →
        (∃ v b, py_get value "lastCheckedAt" = Ok v ∧ condition v = Ok b)
        ∧ ∀ record, value = JDict record →
            dict_get record "lastCheckedAt" = None →
            py_get value "lastCheckedAt" = Ok JNull ∧ dict_get A k = Some value.
Proof.
  intros HD. destruct (partition_get D HD) as (A & B & Hrun & _ & _ & HA & _).
  exists A, B. split; [done |]. intros k value Hk.
  destruct HD as [_ Hall].
  assert (Hrec : is_dict value = true).
  { apply dict_get_elem_of in Hk.
    by apply (proj1 (Forall_forall _ _) Hall (k, value)). }
  destruct value as [| | | | | |record]; try done. split.
  - simpl. destruct (condition_total (default JNull (dict_get record "lastCheckedAt")))
      as [b Hb]. eauto.
  - intros ? [= <-] Hmiss. simpl. rewrite Hmiss. split; [done |].
    apply HA. split; [done |]. apply goes_to_a_record.
    unfold lastCheckedAt. rewrite Hmiss. by left.
Qed.

Lemma classification_cannot_fail_witness :
  Dataset sample ∧
  ∃ A B, filter_repositories (JDict sample) = Ok (A, B)
    ∧ ∀ k value, dict_get sample k = Some value →
        (∃ v b, py_get value "lastCheckedAt" = Ok v ∧ condition v = Ok b)
        ∧ ∀ record, value = JDict record →
            dict_get record "lastCheckedAt" = None →
            py_get value "lastCheckedAt" = Ok JNull ∧ dict_get A k = Some value.
Proof.
  split; [by_computation |]. apply (classification_cannot_fail sample). by_computation.
Defined.

(** C4: a record whose [lastCheckedAt] is neither null nor a string is
    placed into [B], not into [A]. *)
Theorem non_string_goes_to_b D k record v :
  Dataset D → dict_get D k = Some (JDict record) →
  dict_get record "lastCheckedAt" = Some v →
  is_None v = false → isinstance_str v = false →
  ∃ A B, filter_repositories (JDict D) = Ok (A, B)
    ∧ dict_get B k = Some (JDict record) ∧ dict_get A k = None.
Proof.
  intros HD Hk Hv Hnull Hstr.
  destruct (partition_get D HD) as (A & B & Hrun & _ & _ & HA & HB).
  exists A, B. split; [done |].
  pose proof (partition_side D A B k _ Hk HA HB) as Hside.
  assert (Hgo : goes_to_a (JDict record) = false).
  { unfold goes_to_a, condition. simpl. rewrite Hv. simpl. by rewrite Hnull, Hstr. }
  rewrite Hgo in Hside. tauto.
Qed.

Lemma non_string_goes_to_b_witness :
  let record := [("lastCheckedAt", JInt 2023)] in
  let D := [("r", JDict record)] in
  Dataset D ∧ dict_get D "r" = Some (JDict record)
  ∧ dict_get record "lastCheckedAt" = Some (JInt 2023)
  ∧ is_None (JInt 2023) = false ∧ isinstance_str (JInt 2023) = false
  ∧ ∃ A B, filter_repositories (JDict D) = Ok (A, B)
      ∧ dict_get B "r" = Some (JDict record) ∧ dict_get A "r" = None.
Proof.
  intros record D. split; [by_computation |]. do 4 (split; [reflexivity |]).
  apply (non_string_goes_to_b D "r" record (JInt 2023));
    [by_computation | reflexivity ..].
Defined.

(** C5: a record whose [lastCheckedAt] is a string of fewer than four
    characters fails the test of the prefix and is placed into [B].  The
    characters are counted on the UTF-8 bytes of the string, so that a text
    of one to three characters outside ASCII is covered as well. *)
Theorem short_string_goes_to_b D k record s :
  Dataset D → dict_get D k = Some (JDict record) →
  dict_get record "lastCheckedAt" = Some (JStr s) →
  (utf8_length s < 4)%nat →
  ∃ A B, filter_repositories (JDict D) = Ok (A, B)
    ∧ py_startswith (JStr s) "2023" = Ok false
    ∧ dict_get B k = Some (JDict record) ∧ dict_get A k = None.
Proof.
  intros HD Hk Hv Hlen.
  destruct (partition_get D HD) as (A & B & Hrun & _ & _ & HA & HB).
  exists A, B. split; [done |].
  pose proof (short_text_no_prefix s Hlen) as Hp.
  split; [simpl; by rewrite Hp |].
  pose proof (partition_side D A B k _ Hk HA HB) as Hside.
  assert (Hgo : goes_to_a (JDict record) = false).
  { unfold goes_to_a, condition. simpl. rewrite Hv. simpl. by rewrite Hp. }
  rewrite Hgo in Hside. tauto.
Qed.

Lemma short_string_goes_to_b_witness :
  let record := [("lastCheckedAt", JStr "日本")] in
  let D := [("r", JDict record)] in
  Dataset D ∧ dict_get D "r" = Some (JDict record)
  ∧ dict_get record "lastCheckedAt" = Some (JStr "日本")
  ∧ (utf8_length "日本" < 4)%nat
  ∧ ∃ A B, filter_repositories (JDict D) = Ok (A, B)
      ∧ py_startswith (JStr "日本") "2023" = Ok false
      ∧ dict_get B "r" = Some (JDict record) ∧ dict_get A "r" = None.
Proof.
  intros record D. split; [by_computation |]. do 2 (split; [reflexivity |]).
  split; [vm_compute; lia |].
  apply (short_string_goes_to_b D "r" record "日本");
    [by_computation | reflexivity | reflexivity | vm_compute; lia].
Defined.

(** C6: merging the two outputs of a Dataset gives back the mapping of the
    input: every key maps to the record it mapped to, whichever output is
    merged into the other. *)
Theorem partition_round_trip D :
  Dataset D →
  ∃ A B, filter_repositories (JDict D) = Ok (A, B)
    ∧ (∀ k, dict_get (dict_update A B) k = dict_get D k)
    ∧ (∀ k, dict_get (dict_update B A) k = dict_get D k).
Proof.
  intros HD.
  destruct (partition_get D HD) as (A & B & Hrun & HwfA & HwfB & HA & HB).
  exists A, B. split; [done |].
  split; intros k; rewrite dict_get_update by done.
  - destruct (dict_get D k) as [v|] eqn:Hk.
    + pose proof (partition_side D A B k v Hk HA HB) as Hside.
      destruct (goes_to_a v); destruct Hside as [-> ->]; done.
    + destruct (partition_absent D A B k Hk HA HB) as [-> ->]. done.
  - destruct (dict_get D k) as [v|] eqn:Hk.
    + pose proof (partition_side D A B k v Hk HA HB) as Hside.
      destruct (goes_to_a v); destruct Hside as [-> ->]; done.
    + destruct (partition_absent D A B k Hk HA HB) as [-> ->]. done.
Qed.

Lemma partition_round_trip_witness :
  Dataset sample ∧
  ∃ A B, filter_repositories (JDict sample) = Ok (A, B)
    ∧ (∀ k, dict_get (dict_update A B) k = dict_get sample k)
    ∧ (∀ k, dict_get (dict_update B A) k = dict_get sample k).
Proof.
  split; [by_computation |]. apply (partition_round_trip sample). by_computation.
Defined.

(** C7: when the root of the document is not a mapping, line 16 raises:
    the script ends on the exception, returns no partition and writes no
    file, whatever writing would have done. *)
Theorem non_mapping_root_raises io data :
  is_dict data = false →
  filter_repositories data = Raise (AttributeError (type_name data) "items")
  ∧ script io data = ([], Some (AttributeError (type_name data) "items")).
Proof. by destruct data. Qed.

Lemma non_mapping_root_raises_witness :
  is_dict (JList [JDict []]) = false
  ∧ filter_repositories (JList [JDict []]) = Raise (AttributeError "list" "items")
  ∧ script (λ _ _, Written) (JList [JDict []])
    = ([], Some (AttributeError "list" "items")).
Proof.
  split; [reflexivity |].
  apply (non_mapping_root_raises (λ _ _, Written) (JList [JDict []])).
  reflexivity.
Defined.

(** C8: the empty Dataset gives two empty outputs. *)
Theorem empty_input_empty_outputs :
  filter_repositories (JDict []) = Ok ([], []).
Proof. reflexivity. Qed.

(** C9: on the input with [r1] (null), [r2] (2023-01-01) and [r3]
    (2024-06-01), [A] holds exactly the entries of [r1] and [r2], [B] holds
    exactly the entry of [r3], and every record is the one of the input. *)
Theorem sample_partition :
  filter_repositories
    (JDict [("r1", JDict [("lastCheckedAt", JNull)]);
            ("r2", JDict [("lastCheckedAt", JStr "2023-01-01")]);
            ("r3", JDict [("lastCheckedAt", JStr "2024-06-01")])])
  = Ok ([("r1", JDict [("lastCheckedAt", JNull)]);
         ("r2", JDict [("lastCheckedAt", JStr "2023-01-01")])],
        [("r3", JDict [("lastCheckedAt", JStr "2024-06-01")])]).
Proof. vm_compute. reflexivity. Qed.

(** C10: where an entry goes depends on that entry alone.  Two Datasets
    that map [k] to the same record place it in the same output, with that
    record, whatever their other entries are. *)
Theorem partition_local D1 D2 k value :
  Dataset D1 → Dataset D2 →
  dict_get D1 k = Some value → dict_get D2 k = Some value →
  ∃ A1 B1 A2 B2,
    filter_repositories (JDict D1) = Ok (A1, B1)
    ∧ filter_repositories (JDict D2) = Ok (A2, B2)
    ∧ dict_get A1 k = dict_get A2 k
    ∧ dict_get B1 k = dict_get B2 k
    ∧ ((dict_get A1 k = Some value ∧ dict_get B1 k = None)
       ∨ (dict_get A1 k = None ∧ dict_get B1 k = Some value)).
Proof.
  intros HD1 HD2 Hk1 Hk2.
  destruct (partition_get D1 HD1) as (A1 & B1 & Hrun1 & _ & _ & HA1 & HB1).
  destruct (partition_get D2 HD2) as (A2 & B2 & Hrun2 & _ & _ & HA2 & HB2).
  exists A1, B1, A2, B2. do 2 (split; [done |]).
  pose proof (partition_side D1 A1 B1 k value Hk1 HA1 HB1) as Hs1.
  pose proof (partition_side D2 A2 B2 k value Hk2 HA2 HB2) as Hs2.
  destruct (goes_to_a value); destruct Hs1 as [Ha1 Hb1], Hs2 as [Ha2 Hb2];
    rewrite Ha1, Ha2, Hb1, Hb2; auto.
Qed.

Lemma partition_local_witness :
  let D2 := [("r0", r3); ("r2", r2)] in
  Dataset sample ∧ Dataset D2
  ∧ dict_get sample "r2" = Some r2 ∧ dict_get D2 "r2" = Some r2
  ∧ ∃ A1 B1 A2 B2,
      filter_repositories (JDict sample) = Ok (A1, B1)
      ∧ filter_repositories (JDict D2) = Ok (A2, B2)
      ∧ dict_get A1 "r2" = dict_get A2 "r2"
      ∧ dict_get B1 "r2" = dict_get B2 "r2"
      ∧ ((dict_get A1 "r2" = Some r2 ∧ dict_get B1 "r2" = None)
         ∨ (dict_get A1 "r2" = None ∧ dict_get B1 "r2" = Some r2)).
Proof.
  intros D2. do 2 (split; [by_computation |]). do 2 (split; [reflexivity |]).
  apply (partition_local sample D2 "r2" r2);
    [by_computation | by_computation | reflexivity | reflexivity].
Defined.

(** ** The loop on any list of items *)

Lemma for_items_app items1 items2 st :
  for_items (items1 ++ items2) st = for_items items1 st ≫= for_items items2.
Proof.
  revert st. induction items1 as [|item items1 IH]; intros st; [done |].
  rewrite <- app_comm_cons, !for_items_cons.
  destruct (loop_body st item) as [st' | e]; simpl; [apply IH | done].
Qed.

(** Line 17 raises on a value that is not a dictionary. *)
Lemma loop_body_non_record st key value :
  is_dict value = false →
  loop_body st (key, value) = Raise (AttributeError (type_name value) "get").
Proof. by destruct st, value. Qed.

(** The loop returns on records, whatever the two dictionaries hold. *)
Lemma for_items_records items st :
  all_records items → ∃ st', for_items items st = Ok st'.
Proof.
  intros Hall. revert st.
  induction Hall as [|[key value] items Hrec Hall IH]; intros [file_a file_b].
  - by eexists.
  - simpl in Hrec. rewrite for_items_cons, loop_body_record by done. simpl.
    apply IH.
Qed.

(** The loop returns on records only. *)
Lemma for_items_Ok_records items st st' :
  for_items items st = Ok st' → all_records items.
Proof.
  revert st. induction items as [|[key value] items IH]; intros [file_a file_b].
  - intros _. constructor.
  - rewrite for_items_cons. destruct (is_dict value) eqn:Hrec.
    + rewrite loop_body_record by done. simpl. intros Hrun.
      constructor; [done | by eapply IH].
    + by rewrite loop_body_non_record.
Qed.

(** ** Filters of items *)

Section filter_facts.
Context {A : Type} (P : A → Prop) `{!∀ x, Decision (P x)}.

Lemma filter_all l : Forall P l → filter P l = l.
Proof.
  induction 1 as [|x l Hx Hl IH]; [done |].
  by rewrite filter_cons_True, IH.
Qed.

Lemma filter_none l : Forall (λ x, ¬ P x) l → filter P l = [].
Proof.
  induction 1 as [|x l Hx Hl IH]; [done |].
  by rewrite filter_cons_False.
Qed.

Lemma Forall_filter_same l : Forall P (filter P l).
Proof. apply Forall_forall. by intros x [? _]%list_elem_of_filter. Qed.

Lemma Forall_filter_other (Q : A → Prop) l : Forall Q l → Forall Q (filter P l).
Proof.
  rewrite !Forall_forall. intros Hl x [_ Hx]%list_elem_of_filter. auto.
Qed.
End filter_facts.

Lemma Dataset_filter (P : string * json → Prop) `{!∀ x, Decision (P x)} D :
  Dataset D → Dataset (filter P D).
Proof.
  intros [Hwf Hall]. split; [by apply dict_wf_filter |].
  by apply Forall_filter_other.
Qed.

Lemma Dataset_app D1 D2 : Dataset (D1 ++ D2) → Dataset D1 ∧ Dataset D2.
Proof.
  unfold Dataset, dict_wf, dict_keys, all_records.
  rewrite fmap_app, NoDup_app, Forall_app. tauto.
Qed.

(** The side of a value is decided by what line 17 reads. *)
Lemma goes_to_a_get value value' :
  py_get value "lastCheckedAt" = py_get value' "lastCheckedAt" →
  goes_to_a value = goes_to_a value'.
Proof. unfold goes_to_a. by intros ->. Qed.

(** [startswith]: the text is the prefix followed by some text. *)
Lemma prefix_append p s :
  String.prefix p s = true ↔ ∃ t, s = String.append p t.
Proof.
  revert s. induction p as [|c p IH]; intros s.
  - split; [by exists s | by destruct s].
  - destruct s as [|c' s]; cbn [String.prefix String.append].
    + split; [done | by intros [t [=]]].
    + destruct (Ascii.ascii_dec c c') as [<- | Hne].
      * rewrite IH. split; [intros [t ->] | intros [t [= ->]]]; by exists t.
      * split; [done | intros [t [= ? _]]; done].
Qed.

(** ** Further properties of the script *)

(** X1: the two outputs of a Dataset keep the order of the input, and
    together they hold every item of the input exactly once: no assignment
    of lines 19 and 21 overwrites an earlier one. *)
Theorem partition_keeps_order D :
  Dataset D →
  ∃ A B, filter_repositories (JDict D) = Ok (A, B)
    ∧ A `sublist_of` D ∧ B `sublist_of` D
    ∧ A ++ B ≡ₚ D
    ∧ length A + length B = length D.
Proof.
  intros HD. exists (filter to_a D), (filter to_b D).
  split; [by apply filter_repositories_Dataset |].
  do 2 (split; [apply sublist_filter |]).
  assert (Hperm : filter to_a D ++ filter to_b D ≡ₚ D).
  { rewrite (list_filter_iff to_b (λ item, ¬ to_a item)) by apply to_b_not_to_a.
    apply filter_app_complement. }
  split; [done |]. by rewrite <- length_app, Hperm.
Qed.

Lemma partition_keeps_order_witness :
  Dataset sample ∧
  ∃ A B, filter_repositories (JDict sample) = Ok (A, B)
    ∧ A `sublist_of` sample ∧ B `sublist_of` sample
    ∧ A ++ B ≡ₚ sample
    ∧ length A + length B = length sample.
Proof.
  split; [by_computation |]. apply (partition_keeps_order sample). by_computation.
Defined.

(** X2: the classification of lines 13-21 returns its two dictionaries
    exactly when the root of the document is a mapping all of whose values
    are mappings; on every other document it raises. *)
Theorem returns_iff_all_records data :
  (∃ A B, filter_repositories data = Ok (A, B))
  ↔ ∃ D, data = JDict D ∧ all_records D.
Proof.
  split.
  - intros (A & B & Hrun). destruct data as [| | | | | |D]; try done.
    exists D. split; [done |]. unfold filter_repositories in Hrun. simpl in Hrun.
    by eapply for_items_Ok_records.
  - intros (D & -> & Hall).
    destruct (for_items_records D ([], []) Hall) as [[A B] Hrun].
    by exists A, B.
Qed.

(** X3: when a value of the root mapping is not a mapping, the run ends on
    the [AttributeError] of the first such value, whatever comes after it,
    and no file is written, also none for the entries classified before,
    whatever writing would have done. *)
Theorem first_non_record_raises io pre key value post :
  all_records pre → is_dict value = false →
  filter_repositories (JDict (pre ++ (key, value) :: post))
  = Raise (AttributeError (type_name value) "get")
  ∧ script io (JDict (pre ++ (key, value) :: post))
    = ([], Some (AttributeError (type_name value) "get")).
Proof.
  intros Hall Hrec.
  assert (Hrun : filter_repositories (JDict (pre ++ (key, value) :: post))
                 = Raise (AttributeError (type_name value) "get")).
  { unfold filter_repositories. simpl. rewrite for_items_app.
    destruct (for_items_records pre ([], []) Hall) as [st ->].
    change (for_items ((key, value) :: post) st
            = Raise (AttributeError (type_name value) "get")).
    by rewrite for_items_cons, loop_body_non_record. }
  split; [done |]. unfold script. by rewrite Hrun.
Qed.

Lemma first_non_record_raises_witness :
  let pre := [("r1", r1)] in
  let post := [("r3", JStr "2023"); ("r4", r3)] in
  all_records pre ∧ is_dict (JInt 5) = false
  ∧ filter_repositories (JDict (pre ++ ("r2", JInt 5) :: post))
    = Raise (AttributeError "int" "get")
  ∧ script (λ _ _, Written) (JDict (pre ++ ("r2", JInt 5) :: post))
    = ([], Some (AttributeError "int" "get")).
Proof.
  intros pre post. split; [repeat constructor |]. split; [reflexivity |].
  apply (first_non_record_raises (λ _ _, Written) pre "r2" (JInt 5) post);
    [repeat constructor | reflexivity].
Defined.

(** X4: the outputs of a Dataset are Datasets, and running the script on
    them changes nothing: [A] goes to [A] whole and [B] to [B] whole, the
    other output being empty. *)
Theorem partition_stable D A B :
  Dataset D → filter_repositories (JDict D) = Ok (A, B) →
  Dataset A ∧ Dataset B
  ∧ filter_repositories (JDict A) = Ok (A, [])
  ∧ filter_repositories (JDict B) = Ok ([], B).
Proof.
  intros HD Hrun. rewrite filter_repositories_Dataset in Hrun by done.
  injection Hrun as <- <-.
  assert (HA : Dataset (filter to_a D)) by by apply Dataset_filter.
  assert (HB : Dataset (filter to_b D)) by by apply Dataset_filter.
  do 2 (split; [done |]). split.
  - rewrite filter_repositories_Dataset by done. f_equal. f_equal.
    + apply filter_all, Forall_filter_same.
    + apply filter_none. eapply Forall_impl; [apply (Forall_filter_same to_a) |].
      intros item Ha Hb. unfold to_a, to_b in *. congruence.
  - rewrite filter_repositories_Dataset by done. f_equal. f_equal.
    + apply filter_none. eapply Forall_impl; [apply (Forall_filter_same to_b) |].
      intros item Hb Ha. unfold to_a, to_b in *. congruence.
    + apply filter_all, Forall_filter_same.
Qed.

Lemma partition_stable_witness :
  let A := [("r1", r1); ("r2", r2)] in
  let B := [("r3", r3)] in
  Dataset sample ∧ filter_repositories (JDict sample) = Ok (A, B)
  ∧ Dataset A ∧ Dataset B
  ∧ filter_repositories (JDict A) = Ok (A, [])
  ∧ filter_repositories (JDict B) = Ok ([], B).
Proof.
  intros A B. split; [by_computation |]. split; [reflexivity |].
  apply (partition_stable sample A B); [by_computation | reflexivity].
Defined.

(** X5: the partition of two Datasets put one after the other is the
    partition of the first followed by the partition of the second, on
    each side. *)
Theorem partition_app D1 D2 :
  Dataset (D1 ++ D2) →
  ∃ A1 B1 A2 B2,
    filter_repositories (JDict D1) = Ok (A1, B1)
    ∧ filter_repositories (JDict D2) = Ok (A2, B2)
    ∧ filter_repositories (JDict (D1 ++ D2)) = Ok (A1 ++ A2, B1 ++ B2).
Proof.
  intros HD. destruct (Dataset_app D1 D2 HD) as [HD1 HD2].
  exists (filter to_a D1), (filter to_b D1), (filter to_a D2), (filter to_b D2).
  rewrite !filter_repositories_Dataset by done.
  by rewrite !filter_app.
Qed.

Lemma partition_app_witness :
  let D1 := [("r1", r1); ("r2", r2)] in
  let D2 := [("r3", r3); ("r4", r1)] in
  Dataset (D1 ++ D2) ∧
  ∃ A1 B1 A2 B2,
    filter_repositories (JDict D1) = Ok (A1, B1)
    ∧ filter_repositories (JDict D2) = Ok (A2, B2)
    ∧ filter_repositories (JDict (D1 ++ D2)) = Ok (A1 ++ A2, B1 ++ B2).
Proof.
  intros D1 D2. split; [by_computation |]. apply (partition_app D1 D2).
  by_computation.
Defined.

(** Items with the same keys and the same readings of line 17 are filed
    under the same keys. *)
Lemma filter_keys_agree D D' :
  Forall2 (λ item item' : string * json,
             item.1 = item'.1
             ∧ py_get item.2 "lastCheckedAt" = py_get item'.2 "lastCheckedAt")
          D D' →
  dict_keys (filter to_a D) = dict_keys (filter to_a D')
  ∧ dict_keys (filter to_b D) = dict_keys (filter to_b D').
Proof.
  unfold dict_keys.
  induction 1 as [|item item' D D' [Hkey Hget%goes_to_a_get] _ [IHa IHb]];
    [done |].
  rewrite !filter_cons. unfold to_a, to_b in *.
  repeat case_decide; rewrite ?fmap_cons; split; congruence.
Qed.

(** X6: the side of an entry depends on its key and its [lastCheckedAt]
    alone.  Two Datasets with the same keys in the same order, whose records
    agree on [lastCheckedAt] and differ in any other field, give outputs
    with the same keys in the same order. *)
Theorem other_fields_do_not_matter D D' :
  Dataset D → Dataset D' →
  Forall2 (λ item item' : string * json,
             item.1 = item'.1
             ∧ py_get item.2 "lastCheckedAt" = py_get item'.2 "lastCheckedAt")
          D D' →
  ∃ A B A' B',
    filter_repositories (JDict D) = Ok (A, B)
    ∧ filter_repositories (JDict D') = Ok (A', B')
    ∧ dict_keys A = dict_keys A' ∧ dict_keys B = dict_keys B'.
Proof.
  intros HD HD' Hsame.
  exists (filter to_a D), (filter to_b D), (filter to_a D'), (filter to_b D').
  rewrite !filter_repositories_Dataset by done.
  do 2 (split; [done |]). by apply filter_keys_agree.
Qed.

Lemma other_fields_do_not_matter_witness :
  let D := [("r1", JDict [("stars", JInt 5); ("lastCheckedAt", JStr "2023-05-01")]);
            ("r2", JDict [("lastCheckedAt", JStr "2022-11-01")])] in
  let D' := [("r1", JDict [("lastCheckedAt", JStr "2023-05-01"); ("stars", JInt 7)]);
             ("r2", JDict [("lastCheckedAt", JStr "2022-11-01"); ("fork", JBool true)])] in
  Dataset D ∧ Dataset D'
  ∧ Forall2 (λ item item' : string * json,
               item.1 = item'.1
               ∧ py_get item.2 "lastCheckedAt" = py_get item'.2 "lastCheckedAt")
            D D'
  ∧ ∃ A B A' B',
      filter_repositories (JDict D) = Ok (A, B)
      ∧ filter_repositories (JDict D') = Ok (A', B')
      ∧ dict_keys A = dict_keys A' ∧ dict_keys B = dict_keys B'.
Proof.
  intros D D'. do 2 (split; [by_computation |]).
  split; [repeat constructor |].
  apply (other_fields_do_not_matter D D');
    [by_computation | by_computation | repeat constructor].
Defined.

(** X7: a string value of [lastCheckedAt] sends the entry to [A] exactly
    when it is the text 2023 followed by any text at all, a date or not;
    every other string sends it to [B]. *)
Theorem string_rule_any_suffix D k record s :
  Dataset D → dict_get D k = Some (JDict record) →
  dict_get record "lastCheckedAt" = Some (JStr s) →
  ∃ A B, filter_repositories (JDict D) = Ok (A, B)
    ∧ (dict_get A k = Some (JDict record) ↔ ∃ t, s = String.append "2023" t)
    ∧ (dict_get B k = Some (JDict record) ↔ ∀ t, s ≠ String.append "2023" t).
Proof.
  intros HD Hk Hs.
  destruct (partition_get D HD) as (A & B & Hrun & _ & _ & HA & HB).
  exists A, B. split; [done |].
  assert (Hgo : goes_to_a (JDict record) = String.prefix "2023" s).
  { unfold goes_to_a, condition. simpl. by rewrite Hs. }
  rewrite HA, HB, Hgo. split.
  - rewrite <- prefix_append. split; [by intros [_ ?] | by intros ?].
  - split.
    + intros [_ Hp] t ->.
      assert (String.prefix "2023" (String.append "2023" t) = true)
        by (apply prefix_append; eauto).
      congruence.
    + intros Hall. split; [done |].
      destruct (String.prefix "2023" s) eqn:Hp; [| done].
      apply prefix_append in Hp as [t ->]. by destruct (Hall t).
Qed.

Lemma string_rule_any_suffix_witness :
  let record := [("lastCheckedAt", JStr "2023 is no date")] in
  let D := [("r", JDict record)] in
  Dataset D ∧ dict_get D "r" = Some (JDict record)
  ∧ dict_get record "lastCheckedAt" = Some (JStr "2023 is no date")
  ∧ ∃ A B, filter_repositories (JDict D) = Ok (A, B)
      ∧ (dict_get A "r" = Some (JDict record)
         ↔ ∃ t, "2023 is no date" = String.append "2023" t)
      ∧ (dict_get B "r" = Some (JDict record)
         ↔ ∀ t, "2023 is no date" ≠ String.append "2023" t).
Proof.
  intros record D. split; [by_computation |]. do 2 (split; [reflexivity |]).
  apply (string_rule_any_suffix D "r" record "2023 is no date");
    [by_computation | reflexivity | reflexivity].
Defined.

(** On a Dataset every item is sent to [A] exactly when every record meets
    the rule, and to [B] exactly when none does. *)
Lemma Forall_to_a D :
  Dataset D →
  Forall to_a D
  ↔ ∀ k record, dict_get D k = Some (JDict record) →
      null_or_2023 (lastCheckedAt record).
Proof.
  intros [Hwf Hall]. rewrite Forall_forall. split.
  - intros Hto k record Hk. apply goes_to_a_record.
    by apply (Hto (k, JDict record)), dict_get_elem_of.
  - intros Hrule [k value] Hin. unfold to_a. simpl.
    pose proof (proj1 (Forall_forall _ _) Hall _ Hin) as Hrec. simpl in Hrec.
    destruct value as [| | | | | |record]; try done.
    apply goes_to_a_record, (Hrule k). by apply elem_of_dict_get.
Qed.

Lemma Forall_to_b D :
  Dataset D →
  Forall to_b D
  ↔ ∀ k record, dict_get D k = Some (JDict record) →
      ¬ null_or_2023 (lastCheckedAt record).
Proof.
  intros [Hwf Hall]. rewrite Forall_forall. split.
  - intros Hto k record Hk Hrule%goes_to_a_record.
    pose proof (Hto (k, JDict record) (dict_get_elem_of _ _ _ Hk)) as Hb.
    unfold to_b in Hb. simpl in Hb. congruence.
  - intros Hrule [k value] Hin. unfold to_b. simpl.
    pose proof (proj1 (Forall_forall _ _) Hall _ Hin) as Hrec. simpl in Hrec.
    destruct value as [| | | | | |record]; try done.
    destruct (goes_to_a (JDict record)) eqn:Hgo; [| done].
    apply goes_to_a_record in Hgo. destruct (Hrule k record); [| done].
    by apply elem_of_dict_get.
Qed.

(** A filter that gives the whole list back accepts every item. *)
Lemma filter_whole {A} (P : A → Prop) `{!∀ x, Decision (P x)} l :
  filter P l = l → Forall P l.
Proof. intros <-. apply Forall_filter_same. Qed.

(** X8: the first output of a Dataset is the input itself, and the second
    is empty, exactly when every record has a null, missing or 2023
    [lastCheckedAt]; the second output is the input itself, and the first is
    empty, exactly when no record has. *)
Theorem one_sided_partition D :
  Dataset D →
  (filter_repositories (JDict D) = Ok (D, [])
   ↔ ∀ k record, dict_get D k = Some (JDict record) →
       null_or_2023 (lastCheckedAt record))
  ∧ (filter_repositories (JDict D) = Ok ([], D)
     ↔ ∀ k record, dict_get D k = Some (JDict record) →
         ¬ null_or_2023 (lastCheckedAt record)).
Proof.
  intros HD. rewrite filter_repositories_Dataset by done.
  rewrite <- Forall_to_a, <- Forall_to_b by done. split; split.
  - intros [= Ha _]. by apply filter_whole in Ha.
  - intros Hall. f_equal. f_equal; [by apply filter_all |].
    apply filter_none. eapply Forall_impl; [done |].
    intros item Ha Hb. unfold to_a, to_b in *. congruence.
  - intros [= _ Hb]. by apply filter_whole in Hb.
  - intros Hall. f_equal. f_equal; [| by apply filter_all].
    apply filter_none. eapply Forall_impl; [done |].
    intros item Hb Ha. unfold to_a, to_b in *. congruence.
Qed.

Lemma one_sided_partition_witness :
  let D := [("r1", r1); ("r2", r2)] in
  Dataset D ∧
  (filter_repositories (JDict D) = Ok (D, [])
   ↔ ∀ k record, dict_get D k = Some (JDict record) →
       null_or_2023 (lastCheckedAt record))
  ∧ (filter_repositories (JDict D) = Ok ([], D)
     ↔ ∀ k record, dict_get D k = Some (JDict record) →
         ¬ null_or_2023 (lastCheckedAt record)).
Proof.
  intros D. split; [by_computation |]. apply (one_sided_partition D).
  by_computation.
Defined.
